(** * flagd telemetry: the metrics recorder of core/pkg/telemetry/metrics.go

    A shallow embedding of the MetricsRecorder facade: the attribute
    builders, the seven recording operations and the constructor
    NewOTelRecorder with its two histogram views.  The OpenTelemetry SDK is
    the sink: every call the facade makes on an instrument handle is appended
    to a log, and the accumulated values are read off that log. *)

From Stdlib Require Import ZArith List String Bool Lia.
From Stdlib Require Import Floats.SpecFloat.
Import ListNotations.

Open Scope string_scope.
Open Scope list_scope.
Open Scope Z_scope.

(** ** Go's float64: IEEE 754 binary64, round to nearest even *)
Module float64.

Definition prec : Z := 53.
Definition emax : Z := 1024.

Definition t : Type := spec_float.

Definition add : t -> t -> t := SFadd prec emax.
Definition mul : t -> t -> t := SFmul prec emax.
Definition div : t -> t -> t := SFdiv prec emax.
Definition leb : t -> t -> bool := SFleb.

(** The conversion float64(n) of an integer n. *)
Definition of_int (n : Z) : t := binary_normalize prec emax n 0 false.

(** The float64 that a decimal constant m / 10^k denotes: the constant is
    exact and is rounded once.  Meant for |m| < 2^53 and k <= 22, where m
    and 10^k are themselves floats and the division rounds the exact
    quotient. *)
Definition dec (m : Z) (k : nat) : t :=
  div (of_int m) (of_int (10 ^ Z.of_nat k)).

(** [exactly f num den]: [f] is finite and its value is num/den
    (den > 0). *)
Definition exactly (f : t) (num den : Z) : bool :=
  match f with
  | S754_zero _ => num =? 0
  | S754_finite s m e =>
      let v := if s then Z.neg m else Z.pos m in
      if 0 <=? e then v * 2 ^ e * den =? num
      else v * den =? num * 2 ^ (- e)
  | _ => false
  end.

(** [nearest f num den]: [f] is finite and num/den lies within half a unit
    in the last place of [f] (den > 0). *)
Definition nearest (f : t) (num den : Z) : bool :=
  match f with
  | S754_zero _ => num =? 0
  | S754_finite s m e =>
      let v := if s then Z.neg m else Z.pos m in
      if 0 <=? e then 2 * Z.abs (v * 2 ^ e * den - num) <=? 2 ^ e * den
      else 2 * Z.abs (v * den - num * 2 ^ (- e)) <=? den
  | _ => false
  end.

Definition ltb : t -> t -> bool := SFltb.

(** The floats of a list grow strictly from each one to the next. *)
Fixpoint increasing (l : list t) : bool :=
  match l with
  | [] => true
  | a :: l' =>
      match l' with
      | [] => true
      | b :: _ => ltb a b && increasing l'
      end
  end.

End float64.

(** ** Go's int64 arithmetic: two's complement wrap-around *)
Module int64.

Definition min : Z := - 2 ^ 63.
Definition max : Z := 2 ^ 63 - 1.

Definition wrap (x : Z) : Z := (x + 2 ^ 63) mod 2 ^ 64 - 2 ^ 63.

Definition add (x y : Z) : Z := wrap (x + y).

End int64.

(** ** Go's error interface: a value with an Error() method; nil is [None] *)
Class error (E : Type) := Error : E -> string.

(** An error made by errors.New(msg): Error() returns msg. *)
#[export] Instance error_string : error string := fun msg => msg.

(** ** go.opentelemetry.io/otel/attribute *)
Module attribute.

Definition Key : Type := string.

Inductive Value : Type :=
| BoolValue (b : bool)
| Int64Value (n : Z)
| StringValue (s : string).

Record KeyValue : Type := { key : Key; value : Value }.

(** Key.String(v) *)
Definition String (k : Key) (v : string) : KeyValue :=
  {| key := k; value := StringValue v |}.

Definition has_key (k : Key) (attrs : list KeyValue) : bool :=
  existsb (fun kv => String.eqb (key kv) k) attrs.

Definition Value_eqb (a b : Value) : bool :=
  match a, b with
  | BoolValue x, BoolValue y => Bool.eqb x y
  | Int64Value x, Int64Value y => Z.eqb x y
  | StringValue x, StringValue y => String.eqb x y
  | _, _ => false
  end.

Definition KeyValue_eqb (a b : KeyValue) : bool :=
  String.eqb (key a) (key b) && Value_eqb (value a) (value b).

Fixpoint Set_eqb (a b : list KeyValue) : bool :=
  match a, b with
  | [], [] => true
  | x :: a', y :: b' => KeyValue_eqb x y && Set_eqb a' b'
  | _, _ => false
  end.

(** Puts [kv] at its place in a list sorted by key, in the stead of an
    attribute of the same key if there is one. *)
Fixpoint put (kv : KeyValue) (set : list KeyValue) : list KeyValue :=
  match set with
  | [] => [kv]
  | kv' :: set' =>
      match String.compare (key kv) (key kv') with
      | Eq => kv :: set'
      | Lt => kv :: kv' :: set'
      | Gt => kv' :: put kv set'
      end
  end.

(** attribute.NewSet(kvs...): the attributes sorted by key, the last value
    kept where a key is repeated.  The SDK keeps one point per set. *)
Definition NewSet (kvs : list KeyValue) : list KeyValue :=
  fold_left (fun set kv => put kv set) kvs [].

(** Two attribute lists denote the same set. *)
Definition same_set (a b : list KeyValue) : bool :=
  Set_eqb (NewSet a) (NewSet b).

(** No key occurs twice in the list. *)
Fixpoint distinct_keys (ks : list Key) : bool :=
  match ks with
  | [] => true
  | k :: ks' => negb (existsb (String.eqb k) ks') && distinct_keys ks'
  end.

End attribute.

(** ** go.opentelemetry.io/otel/semconv/v1.18.0 (the keys the recorder uses) *)
Module semconv.

Definition ServiceNameKey : attribute.Key := "service.name".
Definition HTTPURLKey : attribute.Key := "http.url".
Definition HTTPMethodKey : attribute.Key := "http.method".
Definition HTTPStatusCodeKey : attribute.Key := "http.status_code".
Definition FeatureFlagProviderNameKey : attribute.Key :=
  "feature_flag.provider_name".

Definition FeatureFlagProviderName (val : string) : attribute.KeyValue :=
  attribute.String FeatureFlagProviderNameKey val.

End semconv.

(** ** Go's time.Duration: an int64 count of nanoseconds *)
Module time.

Definition Duration : Type := Z.

Definition Nanosecond : Duration := 1.
Definition Microsecond : Duration := 1000 * Nanosecond.
Definition Millisecond : Duration := 1000 * Microsecond.
Definition Second : Duration := 1000 * Millisecond.

(** Duration.Seconds: the whole seconds and the remaining nanoseconds are
    converted separately, [/] and [%] truncating towards zero. *)
Definition Seconds (d : Duration) : float64.t :=
  let sec := Z.quot d Second in
  let nsec := Z.rem d Second in
  float64.add (float64.of_int sec)
              (float64.div (float64.of_int nsec) (float64.of_int (10 ^ 9))).

End time.

(** ** github.com/prometheus/client_golang/prometheus (bucket helpers) *)
Module prometheus.

(** Modelled from the spec: prometheus.DefBuckets, a constant of the
    Prometheus client library, is not under src/.  The spec calls it the
    backend-default latency bucket set, in seconds, spanning sub-millisecond
    to tens of seconds; the library declares it as the literal
    {.005, .01, .025, .05, .1, .25, .5, 1, 2.5, 5, 10}. *)
Definition DefBuckets : list float64.t :=
  [ float64.dec 5 3; float64.dec 1 2; float64.dec 25 3; float64.dec 5 2;
    float64.dec 1 1; float64.dec 25 2; float64.dec 5 1; float64.of_int 1;
    float64.dec 25 1; float64.of_int 5; float64.of_int 10 ].

(** The loop of ExponentialBuckets: buckets[i] = start; start *= factor. *)
Fixpoint fill (count : nat) (start factor : float64.t) : list float64.t :=
  match count with
  | O => []
  | S count' => start :: fill count' (float64.mul start factor) factor
  end.

(** Modelled from the spec: prometheus.ExponentialBuckets is not under
    src/.  It yields [count] buckets, the first at [start], each next one
    the previous multiplied by [factor]; the library panics ([None]) unless
    count >= 1, start > 0 and factor > 1. *)
Definition ExponentialBuckets (start factor : float64.t) (count : Z)
  : option (list float64.t) :=
  if count <? 1 then None
  else if float64.leb start (float64.of_int 0) then None
  else if float64.leb factor (float64.of_int 1) then None
  else Some (fill (Z.to_nat count) start factor).

End prometheus.

(** ** go.opentelemetry.io/otel/sdk/instrumentation *)
Module instrumentation.

Record Scope : Type :=
  { Name : string; Version : string; SchemaURL : string }.

(** The struct literal Scope{Name: name}: the other fields are zero. *)
Definition named (name : string) : Scope :=
  {| Name := name; Version := ""; SchemaURL := "" |}.

End instrumentation.

(** ** go.opentelemetry.io/otel/sdk/metric/aggregation *)
Module aggregation.

Inductive Aggregation : Type :=
| Default
| ExplicitBucketHistogram (Boundaries : list float64.t) (NoMinMax : bool).

Definition Boundaries (a : Aggregation) : option (list float64.t) :=
  match a with
  | Default => None
  | ExplicitBucketHistogram b _ => Some b
  end.

End aggregation.

(** ** go.opentelemetry.io/otel/sdk/metric: instrument criteria, streams, views *)
Module metric.

Inductive InstrumentKind : Type :=
| InstrumentKindUndefined
| InstrumentKindCounter
| InstrumentKindUpDownCounter
| InstrumentKindHistogram.

(** metric.Instrument, used as the matching criteria of a view. *)
Record Instrument : Type :=
  { Name : string;
    Description : string;
    Kind : InstrumentKind;
    Unit : string;
    Scope : instrumentation.Scope }.

Record Stream : Type :=
  { StreamName : string;
    StreamDescription : string;
    StreamUnit : string;
    Aggregation : aggregation.Aggregation }.

(** metric.NewView(criteria, mask) *)
Record View : Type := NewView { criteria : Instrument; mask : Stream }.

End metric.

Section Telemetry.

(** Types that are opaque to the package: context.Context, metric.Reader,
    resource.Resource and the dynamic type behind an [error]. *)
Variables (Ctx Reader Resource E : Type).
Context {error_E : error E}.

(** SemConvFeatureFlagAttributes(key, variant) belongs to this package but
    lies outside metrics.go; the recorder only appends to its result. *)
Variable SemConvFeatureFlagAttributes :
  string -> string -> list attribute.KeyValue.

(** The error, if any, with which the SDK answers the creation of an
    instrument of a given kind and name.  The constructor discards it. *)
Variable creation_error : metric.InstrumentKind -> string -> option E.

(** *** The meter provider and its options *)

Inductive ProviderOption : Type :=
| WithReader (r : Reader)
| WithView (views : list metric.View)
| WithResource (res : Resource).

Record MeterProvider : Type :=
  { readers : list Reader;
    views : list metric.View;
    res : option Resource }.

Definition applyOption (p : MeterProvider) (o : ProviderOption)
  : MeterProvider :=
  match o with
  | WithReader r =>
      {| readers := readers p ++ [r]; views := views p; res := res p |}
  | WithView vs =>
      {| readers := readers p; views := views p ++ vs; res := res p |}
  | WithResource rs =>
      {| readers := readers p; views := views p; res := Some rs |}
  end.

(** metric.NewMeterProvider(options...): the options apply in order. *)
Definition NewMeterProvider (options : list ProviderOption) : MeterProvider :=
  fold_left applyOption options {| readers := []; views := []; res := None |}.

Record Meter : Type :=
  { provider : MeterProvider; scope : instrumentation.Scope }.

(** provider.Meter(name) *)
Definition MeterOf (p : MeterProvider) (name : string) : Meter :=
  {| provider := p; scope := instrumentation.named name |}.

(** *** Instrument handles *)

Inductive InstrumentOption : Type :=
| WithDescription (desc : string)
| WithUnit (u : string).

(** The handle behind instrument.Float64Histogram, Int64UpDownCounter and
    Int64Counter: the SDK binds it to the meter that created it.  A creation
    that fails still returns a handle, an unusable one ([inst_usable] is
    false): the SDK keeps no data for the calls made on it. *)
Record instrumentImpl : Type :=
  { inst_meter : Meter;
    inst_kind : metric.InstrumentKind;
    inst_name : string;
    inst_description : string;
    inst_unit : string;
    inst_usable : bool }.

Definition Float64Histogram : Type := instrumentImpl.
Definition Int64UpDownCounter : Type := instrumentImpl.
Definition Int64Counter : Type := instrumentImpl.

Definition applyInstrumentOption (i : instrumentImpl) (o : InstrumentOption)
  : instrumentImpl :=
  match o with
  | WithDescription d =>
      {| inst_meter := inst_meter i; inst_kind := inst_kind i;
         inst_name := inst_name i; inst_description := d;
         inst_unit := inst_unit i; inst_usable := inst_usable i |}
  | WithUnit u =>
      {| inst_meter := inst_meter i; inst_kind := inst_kind i;
         inst_name := inst_name i; inst_description := inst_description i;
         inst_unit := u; inst_usable := inst_usable i |}
  end.

(** The creation of an instrument returns a handle and the SDK's error,
    if any; the handle is usable exactly when there is no error. *)
Definition newInstrument (m : Meter) (kind : metric.InstrumentKind)
    (name : string) (options : list InstrumentOption)
  : instrumentImpl * option E :=
  (fold_left applyInstrumentOption options
     {| inst_meter := m; inst_kind := kind; inst_name := name;
        inst_description := ""; inst_unit := "";
        inst_usable := match creation_error kind name with
                       | None => true
                       | Some _ => false
                       end |},
   creation_error kind name).

(** meter.Float64Histogram, meter.Int64UpDownCounter, meter.Int64Counter *)
Definition NewFloat64Histogram (m : Meter) :=
  newInstrument m metric.InstrumentKindHistogram.
Definition NewInt64UpDownCounter (m : Meter) :=
  newInstrument m metric.InstrumentKindUpDownCounter.
Definition NewInt64Counter (m : Meter) :=
  newInstrument m metric.InstrumentKindCounter.

(** Instrument identity inside the SDK: scope name and instrument name. *)
Definition same_instrument (a b : instrumentImpl) : bool :=
  String.eqb (instrumentation.Name (scope (inst_meter a)))
             (instrumentation.Name (scope (inst_meter b)))
  && String.eqb (inst_name a) (inst_name b).

(** *** The sink: the calls received by the SDK, oldest first *)

Inductive Measurement : Type :=
| Float64Record (inst : instrumentImpl) (ctx : Ctx) (v : float64.t)
    (attrs : list attribute.KeyValue)
| Int64Add (inst : instrumentImpl) (ctx : Ctx) (incr : Z)
    (attrs : list attribute.KeyValue).

Definition Sdk : Type := list Measurement.

Definition instrument_of (m : Measurement) : instrumentImpl :=
  match m with
  | Float64Record inst _ _ _ => inst
  | Int64Add inst _ _ _ => inst
  end.

(** A state monad over the sink. *)
Definition M (A : Type) : Type := Sdk -> A * Sdk.

Definition ret {A : Type} (a : A) : M A := fun s => (a, s).

Definition bind {A B : Type} (m : M A) (k : A -> M B) : M B :=
  fun s => let (a, s') := m s in k a s'.

Definition exec {A : Type} (m : M A) (s : Sdk) : Sdk := snd (m s).

Notation "m1 ;; m2" := (bind m1 (fun _ => m2))
  (at level 61, right associativity).

(** histogram.Record(ctx, v, attrs...) *)
Definition Float64Histogram_Record (h : Float64Histogram) (ctx : Ctx)
    (v : float64.t) (attrs : list attribute.KeyValue) : M unit :=
  fun s => (tt, s ++ [Float64Record h ctx v attrs]).

(** counter.Add(ctx, incr, attrs...), for both counter kinds *)
Definition Int64Counter_Add (c : instrumentImpl) (ctx : Ctx) (incr : Z)
    (attrs : list attribute.KeyValue) : M unit :=
  fun s => (tt, s ++ [Int64Add c ctx incr attrs]).

(** The values recorded on a histogram, in order, with their attributes. *)
Fixpoint records_on (h : instrumentImpl) (log : Sdk)
  : list (float64.t * list attribute.KeyValue) :=
  match log with
  | [] => []
  | Float64Record i _ v attrs :: log' =>
      if same_instrument i h then (v, attrs) :: records_on h log'
      else records_on h log'
  | Int64Add _ _ _ _ :: log' => records_on h log'
  end.

(** The increments added on a counter, in order, with their attributes. *)
Fixpoint adds_on (c : instrumentImpl) (log : Sdk)
  : list (Z * list attribute.KeyValue) :=
  match log with
  | [] => []
  | Int64Add i _ incr attrs :: log' =>
      if same_instrument i c then (incr, attrs) :: adds_on c log'
      else adds_on c log'
  | Float64Record _ _ _ _ :: log' => adds_on c log'
  end.

(** The int64 sum of the increments received for counter [c] with the
    attribute lists that [sel] selects: a running sum that wraps and is not
    clamped.  It is a sum over points of the SDK when [sel] does not tell
    apart two lists of the same attribute set. *)
Definition Int64Sum (c : instrumentImpl)
    (sel : list attribute.KeyValue -> bool) (log : Sdk) : Z :=
  fold_left (fun acc p => if sel (snd p) then int64.add acc (fst p) else acc)
            (adds_on c log) 0.

(** The sum the SDK holds at the point of counter [c] for the attribute set
    of [attrs]. *)
Definition Int64Point (c : instrumentImpl) (attrs : list attribute.KeyValue)
    (log : Sdk) : Z :=
  Int64Sum c (attribute.same_set attrs) log.

(** *** Package telemetry *)

Definition requestDurationName : string := "http_request_duration_seconds".
Definition responseSizeName : string := "http_response_size_bytes".
Definition FlagdProviderName : string := "flagd".
Definition FeatureFlagReasonKeyName : string := "feature_flag.reason".
Definition ExceptionTypeKeyName : string := "exception.type".
Definition FeatureFlagReasonKey : attribute.Key := FeatureFlagReasonKeyName.
Definition ExceptionTypeKey : attribute.Key := ExceptionTypeKeyName.

Record MetricsRecorder : Type :=
  { httpRequestDurHistogram : Float64Histogram;
    httpResponseSizeHistogram : Float64Histogram;
    httpRequestsInflight : Int64UpDownCounter;
    impressions : Int64Counter;
    reasons : Int64Counter }.

Definition FeatureFlagReason (val : string) : attribute.KeyValue :=
  attribute.String FeatureFlagReasonKey val.

Definition ExceptionType (val : string) : attribute.KeyValue :=
  attribute.String ExceptionTypeKey val.

Definition HTTPAttributes (r : MetricsRecorder)
    (svcName url method code : string) : list attribute.KeyValue :=
  [ attribute.String semconv.ServiceNameKey svcName;
    attribute.String semconv.HTTPURLKey url;
    attribute.String semconv.HTTPMethodKey method;
    attribute.String semconv.HTTPStatusCodeKey code ].

Definition HTTPRequestDuration (r : MetricsRecorder) (ctx : Ctx)
    (duration : time.Duration) (attrs : list attribute.KeyValue) : M unit :=
  Float64Histogram_Record (httpRequestDurHistogram r) ctx
    (time.Seconds duration) attrs.

Definition HTTPResponseSize (r : MetricsRecorder) (ctx : Ctx)
    (sizeBytes : Z) (attrs : list attribute.KeyValue) : M unit :=
  Float64Histogram_Record (httpResponseSizeHistogram r) ctx
    (float64.of_int sizeBytes) attrs.

Definition InFlightRequestStart (r : MetricsRecorder) (ctx : Ctx)
    (attrs : list attribute.KeyValue) : M unit :=
  Int64Counter_Add (httpRequestsInflight r) ctx 1 attrs.

Definition InFlightRequestEnd (r : MetricsRecorder) (ctx : Ctx)
    (attrs : list attribute.KeyValue) : M unit :=
  Int64Counter_Add (httpRequestsInflight r) ctx (-1) attrs.

Definition Impressions (r : MetricsRecorder) (ctx : Ctx)
    (reason variant key : string) : M unit :=
  Int64Counter_Add (impressions r) ctx 1
    (SemConvFeatureFlagAttributes key variant ++ [FeatureFlagReason reason]).

Definition Reasons (r : MetricsRecorder) (ctx : Ctx) (reason : string)
    (err : option E) : M unit :=
  let attrs :=
    [ semconv.FeatureFlagProviderName FlagdProviderName;
      FeatureFlagReason reason ] in
  let attrs :=
    match err with
    | Some e => attrs ++ [ExceptionType (Error e)]
    | None => attrs
    end in
  Int64Counter_Add (reasons r) ctx 1 attrs.

Definition RecordEvaluation (r : MetricsRecorder) (ctx : Ctx)
    (err : option E) (reason variant key : string) : M unit :=
  match err with
  | None => Impressions r ctx reason variant key
  | Some _ => ret tt
  end ;;
  Reasons r ctx reason err.

Definition getDurationView (svcName viewName : string)
    (bucket : list float64.t) : metric.View :=
  metric.NewView
    {| metric.Name := viewName;
       metric.Description := "";
       metric.Kind := metric.InstrumentKindUndefined;
       metric.Unit := "";
       metric.Scope := instrumentation.named svcName |}
    {| metric.StreamName := "";
       metric.StreamDescription := "";
       metric.StreamUnit := "";
       metric.Aggregation :=
         aggregation.ExplicitBucketHistogram bucket false |}.

(** NewOTelRecorder.  A panic of prometheus.ExponentialBuckets, raised
    while the provider's options are evaluated, is the result [None]. *)
Definition NewOTelRecorder (exporter : Reader) (resource : Resource)
    (serviceName : string) : option MetricsRecorder :=
  match prometheus.ExponentialBuckets
          (float64.of_int 100) (float64.of_int 10) 8 with
  | None => None
  | Some sizeBuckets =>
      let provider :=
        NewMeterProvider
          [ WithReader exporter;
            WithView [getDurationView requestDurationName serviceName
                        prometheus.DefBuckets];
            WithView [getDurationView responseSizeName serviceName
                        sizeBuckets];
            WithResource resource ] in
      let meter := MeterOf provider serviceName in
      let (hduration, _) :=
        NewFloat64Histogram meter requestDurationName
          [WithDescription "The latency of the HTTP requests"] in
      let (hsize, _) :=
        NewFloat64Histogram meter responseSizeName
          [WithDescription "The size of the HTTP responses"; WithUnit "By"] in
      let (reqCounter, _) :=
        NewInt64UpDownCounter meter "http_requests_inflight"
          [WithDescription
             "The number of inflight requests being handled at the same time"] in
      let (impressions, _) :=
        NewInt64Counter meter "impressions"
          [WithDescription "The number of evaluations for a given flag"] in
      let (reasons, _) :=
        NewInt64Counter meter "reasons"
          [WithDescription "The number of evaluations for a given reason"] in
      Some {| httpRequestDurHistogram := hduration;
              httpResponseSizeHistogram := hsize;
              httpRequestsInflight := reqCounter;
              impressions := impressions;
              reasons := reasons |}
  end.

(** The views of the provider behind a recorder's instruments. *)
Definition registered_views (r : MetricsRecorder) : list metric.View :=
  views (provider (inst_meter (httpRequestDurHistogram r))).

(** What a view selects, (instrument name, scope name), and the bucket
    boundaries it installs. *)
Definition selector (v : metric.View) : string * string :=
  (metric.Name (metric.criteria v),
   instrumentation.Name (metric.Scope (metric.criteria v))).

Definition boundaries (v : metric.View) : option (list float64.t) :=
  aggregation.Boundaries (metric.Aggregation (metric.mask v)).

(** Modelled from the spec: the SDK's matching of views against instruments
    is not under src/.  A view is a rule for the instrument named X in a
    given scope, and the names must match exactly for it to apply. *)
Definition selects (v : metric.View) (h : instrumentImpl) : bool :=
  String.eqb (metric.Name (metric.criteria v)) (inst_name h)
  && String.eqb (instrumentation.Name (metric.Scope (metric.criteria v)))
                (instrumentation.Name (scope (inst_meter h))).

(** The views of an instrument's own provider that apply to it. *)
Definition applied_views (h : instrumentImpl) : list metric.View :=
  filter (fun v => selects v h) (views (provider (inst_meter h))).

(** The explicit bucket boundaries in force for an instrument: those of the
    first view that applies to it; [None] when it is left with the SDK's
    default aggregation. *)
Definition bucket_boundaries (h : instrumentImpl)
  : option (list float64.t) :=
  match applied_views h with
  | v :: _ => boundaries v
  | [] => None
  end.

(** *** A process sharing one recorder *)

(** The recording operations a caller can invoke through the shared
    recorder. *)
Inductive Call : Type :=
| CallHTTPRequestDuration (ctx : Ctx) (duration : time.Duration)
    (attrs : list attribute.KeyValue)
| CallHTTPResponseSize (ctx : Ctx) (sizeBytes : Z)
    (attrs : list attribute.KeyValue)
| CallInFlightRequestStart (ctx : Ctx) (attrs : list attribute.KeyValue)
| CallInFlightRequestEnd (ctx : Ctx) (attrs : list attribute.KeyValue)
| CallImpressions (ctx : Ctx) (reason variant key : string)
| CallReasons (ctx : Ctx) (reason : string) (err : option E)
| CallRecordEvaluation (ctx : Ctx) (err : option E)
    (reason variant key : string).

(** The methods have value receivers: each runs on a copy [r] of the
    recorder it is invoked on. *)
Definition method (c : Call) (r : MetricsRecorder) : M unit :=
  match c with
  | CallHTTPRequestDuration ctx d attrs => HTTPRequestDuration r ctx d attrs
  | CallHTTPResponseSize ctx n attrs => HTTPResponseSize r ctx n attrs
  | CallInFlightRequestStart ctx attrs => InFlightRequestStart r ctx attrs
  | CallInFlightRequestEnd ctx attrs => InFlightRequestEnd r ctx attrs
  | CallImpressions ctx reason variant key =>
      Impressions r ctx reason variant key
  | CallReasons ctx reason err => Reasons r ctx reason err
  | CallRecordEvaluation ctx err reason variant key =>
      RecordEvaluation r ctx err reason variant key
  end.

Record Process : Type := { recorder : MetricsRecorder; sdk : Sdk }.

Definition invoke (p : Process) (c : Call) : Process :=
  let r := recorder p in
  {| recorder := recorder p; sdk := exec (method c r) (sdk p) |}.

Definition run (p : Process) (calls : list Call) : Process :=
  fold_left invoke calls p.

Definition handles (r : MetricsRecorder) : list instrumentImpl :=
  [ httpRequestDurHistogram r; httpResponseSizeHistogram r;
    httpRequestsInflight r; impressions r; reasons r ].

(** *** What a sequence of calls should leave on each instrument

    The observations expected from the calls alone, against which the sink
    is compared. *)

(** All instruments of a list are pairwise distinct for the SDK. *)
Fixpoint all_distinct (l : list instrumentImpl) : bool :=
  match l with
  | [] => true
  | h :: t =>
      forallb (fun h' => negb (same_instrument h h')) t && all_distinct t
  end.

Definition distinct_handles (r : MetricsRecorder) : bool :=
  all_distinct (handles r).

Definition duration_points (c : Call)
  : list (float64.t * list attribute.KeyValue) :=
  match c with
  | CallHTTPRequestDuration _ d attrs => [(time.Seconds d, attrs)]
  | _ => []
  end.

Definition size_points (c : Call)
  : list (float64.t * list attribute.KeyValue) :=
  match c with
  | CallHTTPResponseSize _ n attrs => [(float64.of_int n, attrs)]
  | _ => []
  end.

Definition inflight_adds (c : Call) : list (Z * list attribute.KeyValue) :=
  match c with
  | CallInFlightRequestStart _ attrs => [(1, attrs)]
  | CallInFlightRequestEnd _ attrs => [(-1, attrs)]
  | _ => []
  end.

Definition impressions_adds (c : Call) : list (Z * list attribute.KeyValue) :=
  match c with
  | CallImpressions _ reason variant key
  | CallRecordEvaluation _ None reason variant key =>
      [(1, SemConvFeatureFlagAttributes key variant
           ++ [attribute.String "feature_flag.reason" reason])]
  | _ => []
  end.

Definition reasons_adds (c : Call) : list (Z * list attribute.KeyValue) :=
  match c with
  | CallReasons _ reason err
  | CallRecordEvaluation _ err reason _ _ =>
      [(1, [ attribute.String "feature_flag.provider_name" "flagd";
             attribute.String "feature_flag.reason" reason ]
           ++ match err with
              | Some e => [attribute.String "exception.type" (Error e)]
              | None => []
              end)]
  | _ => []
  end.

(** Starts minus ends among the calls whose attributes [sel] selects. *)
Definition inflight_net (sel : list attribute.KeyValue -> bool)
    (calls : list Call) : Z :=
  fold_right (fun c n =>
                match c with
                | CallInFlightRequestStart _ attrs =>
                    if sel attrs then 1 + n else n
                | CallInFlightRequestEnd _ attrs =>
                    if sel attrs then n - 1 else n
                | _ => n
                end) 0 calls.

Definition ctx_of_call (c : Call) : Ctx :=
  match c with
  | CallHTTPRequestDuration ctx _ _ => ctx
  | CallHTTPResponseSize ctx _ _ => ctx
  | CallInFlightRequestStart ctx _ => ctx
  | CallInFlightRequestEnd ctx _ => ctx
  | CallImpressions ctx _ _ _ => ctx
  | CallReasons ctx _ _ => ctx
  | CallRecordEvaluation ctx _ _ _ _ => ctx
  end.

Definition ctx_of (m : Measurement) : Ctx :=
  match m with
  | Float64Record _ ctx _ _ => ctx
  | Int64Add _ ctx _ _ => ctx
  end.

(** A flag evaluation reported through RecordEvaluation. *)
Record Evaluation : Type :=
  { ev_ctx : Ctx;
    ev_err : option E;
    ev_reason : string;
    ev_variant : string;
    ev_key : string }.

Definition report (ev : Evaluation) : Call :=
  CallRecordEvaluation (ev_ctx ev) (ev_err ev) (ev_reason ev)
    (ev_variant ev) (ev_key ev).

Definition succeeded (ev : Evaluation) : bool :=
  match ev_err ev with
  | None => true
  | Some _ => false
  end.

(** ** Properties *)

(** *** The state monad and the log *)

Lemma exec_bind (A B : Type) (m : M A) (k : M B) (s : Sdk) :
  exec (m ;; k) s = exec k (exec m s).
Proof.
  unfold exec, bind. destruct (m s) as [a s']. reflexivity.
Qed.

Lemma exec_ret (A : Type) (a : A) (s : Sdk) : exec (ret a) s = s.
Proof. reflexivity. Qed.

Lemma exec_Record h ctx v attrs s :
  exec (Float64Histogram_Record h ctx v attrs) s
  = s ++ [Float64Record h ctx v attrs].
Proof. reflexivity. Qed.

Lemma exec_Add c ctx incr attrs s :
  exec (Int64Counter_Add c ctx incr attrs) s = s ++ [Int64Add c ctx incr attrs].
Proof. reflexivity. Qed.

Lemma same_instrument_refl (i : instrumentImpl) : same_instrument i i = true.
Proof.
  unfold same_instrument. now rewrite !String.eqb_refl.
Qed.

Lemma records_on_app h s1 s2 :
  records_on h (s1 ++ s2) = records_on h s1 ++ records_on h s2.
Proof.
  induction s1 as [|m s1 IH]; simpl; [reflexivity|].
  destruct m as [i ? v attrs|i ? incr attrs]; [|exact IH].
  destruct (same_instrument i h); simpl; now rewrite IH.
Qed.

Lemma adds_on_app c s1 s2 :
  adds_on c (s1 ++ s2) = adds_on c s1 ++ adds_on c s2.
Proof.
  induction s1 as [|m s1 IH]; simpl; [reflexivity|].
  destruct m as [i ? v attrs|i ? incr attrs]; [exact IH|].
  destruct (same_instrument i c); simpl; now rewrite IH.
Qed.

Lemma adds_on_snoc c s i ctx incr attrs :
  adds_on c (s ++ [Int64Add i ctx incr attrs])
  = adds_on c s ++ (if same_instrument i c then [(incr, attrs)] else []).
Proof.
  rewrite adds_on_app. simpl. now destruct (same_instrument i c).
Qed.

(** *** int64 wrap-around *)

Lemma wrap_range (x : Z) : int64.min <= int64.wrap x <= int64.max.
Proof.
  unfold int64.wrap, int64.min, int64.max.
  assert (H : 0 <= (x + 2 ^ 63) mod 2 ^ 64 < 2 ^ 64)
    by (apply Z.mod_pos_bound; lia).
  lia.
Qed.

Lemma wrap_small (x : Z) :
  int64.min <= x <= int64.max -> int64.wrap x = x.
Proof.
  unfold int64.wrap, int64.min, int64.max. intros H.
  rewrite Z.mod_small by lia. lia.
Qed.

Lemma wrap_add_l (x y : Z) : int64.wrap (int64.wrap x + y) = int64.wrap (x + y).
Proof.
  unfold int64.wrap.
  replace ((x + 2 ^ 63) mod 2 ^ 64 - 2 ^ 63 + y + 2 ^ 63)
    with ((x + 2 ^ 63) mod 2 ^ 64 + y) by lia.
  rewrite Zplus_mod_idemp_l. do 2 f_equal. lia.
Qed.

Lemma Int64Sum_snoc c sel s i ctx incr attrs :
  Int64Sum c sel (s ++ [Int64Add i ctx incr attrs])
  = if same_instrument i c && sel attrs
    then int64.add (Int64Sum c sel s) incr
    else Int64Sum c sel s.
Proof.
  unfold Int64Sum. rewrite adds_on_snoc.
  destruct (same_instrument i c); simpl.
  - rewrite fold_left_app. reflexivity.
  - now rewrite app_nil_r.
Qed.

Lemma fold_sum_range (sel : list attribute.KeyValue -> bool)
  (l : list (Z * list attribute.KeyValue)) (a : Z) :
  int64.min <= a <= int64.max ->
  int64.min
  <= fold_left (fun acc p => if sel (snd p) then int64.add acc (fst p) else acc)
               l a
  <= int64.max.
Proof.
  revert a. induction l as [|p l IH]; intros a Ha; simpl; [exact Ha|].
  apply IH. destruct (sel (snd p)); [apply wrap_range|exact Ha].
Qed.

Lemma Int64Sum_range c sel s :
  int64.min <= Int64Sum c sel s <= int64.max.
Proof.
  apply fold_sum_range. unfold int64.min, int64.max. lia.
Qed.

(** *** The constructor *)

Lemma ExponentialBuckets_100_10_8 :
  prometheus.ExponentialBuckets (float64.of_int 100) (float64.of_int 10) 8
  = Some (map float64.of_int
            [100; 1000; 10000; 100000; 1000000; 10000000; 100000000;
             1000000000]).
Proof. vm_compute. reflexivity. Qed.

(** The recorder that the constructor returns: it never panics, registers
    the two views in order, and derives its five instruments from one meter
    scoped to the service name. *)
Lemma NewOTelRecorder_built exporter resource serviceName :
  exists r,
    NewOTelRecorder exporter resource serviceName = Some r
    /\ registered_views r
       = [ getDurationView requestDurationName serviceName
             prometheus.DefBuckets;
           getDurationView responseSizeName serviceName
             (map float64.of_int
                [100; 1000; 10000; 100000; 1000000; 10000000; 100000000;
                 1000000000]) ]
    /\ map (fun h => (instrumentation.Name (scope (inst_meter h)), inst_name h))
           (handles r)
       = [ (serviceName, "http_request_duration_seconds");
           (serviceName, "http_response_size_bytes");
           (serviceName, "http_requests_inflight");
           (serviceName, "impressions");
           (serviceName, "reasons") ].
Proof.
  unfold NewOTelRecorder. rewrite ExponentialBuckets_100_10_8.
  eexists. split; [reflexivity|]. split; reflexivity.
Qed.

Lemma NewOTelRecorder_counters_distinct exporter resource serviceName :
  exists r,
    NewOTelRecorder exporter resource serviceName = Some r
    /\ same_instrument (reasons r) (impressions r) = false
    /\ same_instrument (impressions r) (reasons r) = false.
Proof.
  destruct (NewOTelRecorder_built exporter resource serviceName)
    as (r & Hr & _ & Hh).
  exists r. split; [exact Hr|].
  unfold handles in Hh. simpl in Hh.
  injection Hh as _ _ _ _ _ _ _ Him _ Hre.
  unfold same_instrument. rewrite Him, Hre. simpl.
  rewrite !andb_false_r. now split.
Qed.

(** *** Attribute builders *)

(** C5: for every four input strings, HTTPAttributes returns exactly four
    attributes, in the order service name, URL, method, status code, under
    the semantic-convention keys "service.name", "http.url", "http.method"
    and "http.status_code", each carrying the supplied string as a string
    value (the status code included). *)
Theorem C5_HTTPAttributes_four_in_order :
  forall (r : MetricsRecorder) (svcName url method code : string),
    HTTPAttributes r svcName url method code
    = [ {| attribute.key := "service.name";
           attribute.value := attribute.StringValue svcName |};
        {| attribute.key := "http.url";
           attribute.value := attribute.StringValue url |};
        {| attribute.key := "http.method";
           attribute.value := attribute.StringValue method |};
        {| attribute.key := "http.status_code";
           attribute.value := attribute.StringValue code |} ]
    /\ List.length (HTTPAttributes r svcName url method code) = 4%nat
    /\ map attribute.key (HTTPAttributes r svcName url method code)
       = [ semconv.ServiceNameKey; semconv.HTTPURLKey; semconv.HTTPMethodKey;
           semconv.HTTPStatusCodeKey ].
Proof.
  intros r svcName url method code. repeat split.
Qed.

(** *** Histograms *)

(** C6: for every elapsed duration, HTTPRequestDuration makes exactly one
    Record call on the duration histogram, with the value
    duration.Seconds() and the caller's attributes; a duration of 1500
    milliseconds records the float64 1.5. *)
Theorem C6_HTTPRequestDuration_records_seconds :
  forall (r : MetricsRecorder) (ctx : Ctx) (duration : time.Duration)
         (attrs : list attribute.KeyValue) (s : Sdk),
    exec (HTTPRequestDuration r ctx duration attrs) s
    = s ++ [Float64Record (httpRequestDurHistogram r) ctx
              (time.Seconds duration) attrs]
    /\ records_on (httpRequestDurHistogram r)
         (exec (HTTPRequestDuration r ctx duration attrs) s)
       = records_on (httpRequestDurHistogram r) s
         ++ [(time.Seconds duration, attrs)]
    /\ time.Seconds (1500 * time.Millisecond) = float64.dec 15 1
    /\ float64.exactly (time.Seconds (1500 * time.Millisecond)) 3 2 = true.
Proof.
  intros r ctx duration attrs s. split; [reflexivity|]. split.
  - unfold HTTPRequestDuration. rewrite exec_Record, records_on_app. simpl.
    now rewrite same_instrument_refl.
  - split; vm_compute; reflexivity.
Qed.

(** C8: for every byte count, negative ones included, HTTPResponseSize makes
    exactly one Record call on the size histogram with float64(sizeBytes),
    whatever the count; the count 2048 records the float64 2048. *)
Theorem C8_HTTPResponseSize_records_float :
  forall (r : MetricsRecorder) (ctx : Ctx) (sizeBytes : Z)
         (attrs : list attribute.KeyValue) (s : Sdk),
    exec (HTTPResponseSize r ctx sizeBytes attrs) s
    = s ++ [Float64Record (httpResponseSizeHistogram r) ctx
              (float64.of_int sizeBytes) attrs]
    /\ records_on (httpResponseSizeHistogram r)
         (exec (HTTPResponseSize r ctx sizeBytes attrs) s)
       = records_on (httpResponseSizeHistogram r) s
         ++ [(float64.of_int sizeBytes, attrs)]
    /\ float64.exactly (float64.of_int 2048) 2048 1 = true
    /\ float64.exactly (float64.of_int (-2048)) (-2048) 1 = true.
Proof.
  intros r ctx sizeBytes attrs s. split; [reflexivity|]. split.
  - unfold HTTPResponseSize. rewrite exec_Record, records_on_app. simpl.
    now rewrite same_instrument_refl.
  - split; vm_compute; reflexivity.
Qed.

(** *** The in-flight counter *)

(** C7: InFlightRequestStart adds exactly +1 and InFlightRequestEnd exactly
    -1 to the in-flight up/down counter; a Start followed by an End with the
    same attributes leaves every sum of the counter where it was; an End
    alone lowers the sum by one with no clamping, down to -1 on a fresh
    sink. *)
Theorem C7_inflight_start_end :
  forall (r : MetricsRecorder) (ctx : Ctx) (attrs : list attribute.KeyValue)
         (s : Sdk) (sel : list attribute.KeyValue -> bool),
    exec (InFlightRequestStart r ctx attrs) s
    = s ++ [Int64Add (httpRequestsInflight r) ctx 1 attrs]
    /\ exec (InFlightRequestEnd r ctx attrs) s
       = s ++ [Int64Add (httpRequestsInflight r) ctx (-1) attrs]
    /\ Int64Sum (httpRequestsInflight r) sel
         (exec (InFlightRequestStart r ctx attrs ;;
                InFlightRequestEnd r ctx attrs) s)
       = Int64Sum (httpRequestsInflight r) sel s
    /\ Int64Sum (httpRequestsInflight r) sel
         (exec (InFlightRequestEnd r ctx attrs) s)
       = (if sel attrs
          then int64.add (Int64Sum (httpRequestsInflight r) sel s) (-1)
          else Int64Sum (httpRequestsInflight r) sel s)
    /\ Int64Sum (httpRequestsInflight r) (fun _ => true)
         (exec (InFlightRequestEnd r ctx attrs) []) = -1.
Proof.
  intros r ctx attrs s sel.
  split; [reflexivity|]. split; [reflexivity|]. split; [|split].
  - rewrite exec_bind. unfold InFlightRequestStart, InFlightRequestEnd.
    rewrite !exec_Add, !Int64Sum_snoc, same_instrument_refl. simpl.
    destruct (sel attrs); [|reflexivity].
    unfold int64.add. rewrite wrap_add_l.
    replace (Int64Sum (httpRequestsInflight r) sel s + 1 + -1)
      with (Int64Sum (httpRequestsInflight r) sel s) by lia.
    apply wrap_small, Int64Sum_range.
  - unfold InFlightRequestEnd.
    now rewrite exec_Add, Int64Sum_snoc, same_instrument_refl.
  - unfold InFlightRequestEnd.
    rewrite exec_Add, Int64Sum_snoc, same_instrument_refl. reflexivity.
Qed.

(** *** Flag evaluations *)

Lemma exec_Reasons r ctx reason err s :
  exec (Reasons r ctx reason err) s
  = s ++ [Int64Add (reasons r) ctx 1
            ([ attribute.String "feature_flag.provider_name" "flagd";
               attribute.String "feature_flag.reason" reason ]
             ++ match err with
                | Some e => [attribute.String "exception.type" (Error e)]
                | None => []
                end)].
Proof. destruct err; reflexivity. Qed.

Lemma exec_Impressions r ctx reason variant key s :
  exec (Impressions r ctx reason variant key) s
  = s ++ [Int64Add (impressions r) ctx 1
            (SemConvFeatureFlagAttributes key variant
             ++ [attribute.String "feature_flag.reason" reason])].
Proof. reflexivity. Qed.

(** C2: for every context, reason, variant and flag key, RecordEvaluation
    with a nil error makes exactly two calls on the sink: Add(1) on the
    impressions counter, then Add(1) on the reasons counter, whose attributes
    are the provider name and the reason and hold no "exception.type" key.
    On a recorder built by NewOTelRecorder each of the two counters thereby
    receives exactly one more increment, of 1. *)
Theorem C2_RecordEvaluation_success :
  forall (r : MetricsRecorder) (ctx : Ctx) (reason variant key : string)
         (s : Sdk),
    exec (RecordEvaluation r ctx None reason variant key) s
    = s ++ [ Int64Add (impressions r) ctx 1
               (SemConvFeatureFlagAttributes key variant
                ++ [attribute.String "feature_flag.reason" reason]);
             Int64Add (reasons r) ctx 1
               [ attribute.String "feature_flag.provider_name" "flagd";
                 attribute.String "feature_flag.reason" reason ] ]
    /\ attribute.has_key ExceptionTypeKey
         [ attribute.String "feature_flag.provider_name" "flagd";
           attribute.String "feature_flag.reason" reason ] = false
    /\ forall exporter resource serviceName,
       exists r0,
         NewOTelRecorder exporter resource serviceName = Some r0
         /\ adds_on (impressions r0)
              (exec (RecordEvaluation r0 ctx None reason variant key) s)
            = adds_on (impressions r0) s
              ++ [(1, SemConvFeatureFlagAttributes key variant
                      ++ [attribute.String "feature_flag.reason" reason])]
         /\ adds_on (reasons r0)
              (exec (RecordEvaluation r0 ctx None reason variant key) s)
            = adds_on (reasons r0) s
              ++ [(1, [ attribute.String "feature_flag.provider_name" "flagd";
                        attribute.String "feature_flag.reason" reason ])].
Proof.
  intros r ctx reason variant key s.
  assert (Hexec : forall r',
    exec (RecordEvaluation r' ctx None reason variant key) s
    = s ++ [ Int64Add (impressions r') ctx 1
               (SemConvFeatureFlagAttributes key variant
                ++ [attribute.String "feature_flag.reason" reason]);
             Int64Add (reasons r') ctx 1
               [ attribute.String "feature_flag.provider_name" "flagd";
                 attribute.String "feature_flag.reason" reason ] ]).
  { intros r'. unfold RecordEvaluation.
    rewrite exec_bind, exec_Impressions, exec_Reasons, <- app_assoc.
    reflexivity. }
  split; [apply Hexec|]. split; [reflexivity|].
  intros exporter resource serviceName.
  destruct (NewOTelRecorder_counters_distinct exporter resource serviceName)
    as (r0 & Hr0 & Hri & Hir).
  exists r0. split; [exact Hr0|].
  rewrite Hexec, !adds_on_app. simpl.
  rewrite !same_instrument_refl, Hri, Hir. simpl.
  split; reflexivity.
Qed.

(** C3: for every non-nil error, RecordEvaluation makes exactly one call on
    the sink, Add(1) on the reasons counter, with the attributes provider
    name "flagd", reason, and "exception.type" carrying err.Error(); the
    impressions counter of a recorder built by NewOTelRecorder receives
    nothing.  Reasons appends the exception-type attribute exactly when the
    error is non-nil. *)
Theorem C3_RecordEvaluation_failure :
  forall (r : MetricsRecorder) (ctx : Ctx) (e : E)
         (reason variant key : string) (s : Sdk),
    exec (RecordEvaluation r ctx (Some e) reason variant key) s
    = s ++ [ Int64Add (reasons r) ctx 1
               [ attribute.String "feature_flag.provider_name" "flagd";
                 attribute.String "feature_flag.reason" reason;
                 attribute.String "exception.type" (Error e) ] ]
    /\ (forall err : option E,
        exists attrs,
          exec (Reasons r ctx reason err) s
          = s ++ [Int64Add (reasons r) ctx 1 attrs]
          /\ attribute.has_key ExceptionTypeKey attrs
             = match err with Some _ => true | None => false end)
    /\ forall exporter resource serviceName,
       exists r0,
         NewOTelRecorder exporter resource serviceName = Some r0
         /\ adds_on (impressions r0)
              (exec (RecordEvaluation r0 ctx (Some e) reason variant key) s)
            = adds_on (impressions r0) s.
Proof.
  intros r ctx e reason variant key s.
  assert (Hexec : forall r',
    exec (RecordEvaluation r' ctx (Some e) reason variant key) s
    = s ++ [ Int64Add (reasons r') ctx 1
               [ attribute.String "feature_flag.provider_name" "flagd";
                 attribute.String "feature_flag.reason" reason;
                 attribute.String "exception.type" (Error e) ] ]).
  { intros r'. unfold RecordEvaluation.
    rewrite exec_bind, exec_ret, exec_Reasons. reflexivity. }
  split; [apply Hexec|]. split.
  - intros err. eexists. split; [apply exec_Reasons|].
    destruct err; reflexivity.
  - intros exporter resource serviceName.
    destruct (NewOTelRecorder_counters_distinct exporter resource serviceName)
      as (r0 & Hr0 & Hri & _).
    exists r0. split; [exact Hr0|].
    rewrite Hexec, adds_on_snoc, Hri. apply app_nil_r.
Qed.

(** *** The recorder is read-only *)

Lemma invoke_frame (p : Process) (c : Call) :
  recorder (invoke p c) = recorder p
  /\ exists evs,
       sdk (invoke p c) = sdk p ++ evs
       /\ Forall (fun m => In (instrument_of m) (handles (recorder p))) evs.
Proof.
  split; [reflexivity|].
  destruct c as [ctx d attrs|ctx n attrs|ctx attrs|ctx attrs
                |ctx reason variant key|ctx reason err
                |ctx err reason variant key];
    unfold invoke, method; cbn [sdk].
  - eexists. split; [reflexivity|]. repeat constructor.
  - eexists. split; [reflexivity|]. constructor; [|constructor].
    simpl. auto.
  - eexists. split; [reflexivity|]. constructor; [|constructor].
    simpl. auto.
  - eexists. split; [reflexivity|]. constructor; [|constructor].
    simpl. auto.
  - eexists. split; [apply exec_Impressions|]. constructor; [|constructor].
    simpl. auto.
  - eexists. split; [apply exec_Reasons|]. constructor; [|constructor].
    simpl. auto 6.
  - destruct err as [e|]; unfold RecordEvaluation; rewrite exec_bind.
    + rewrite exec_ret. eexists. split; [apply exec_Reasons|].
      constructor; [|constructor]. simpl. auto 6.
    + rewrite exec_Impressions, exec_Reasons, <- app_assoc.
      eexists. split; [reflexivity|].
      constructor; [|constructor; [|constructor]]; simpl; auto 6.
Qed.

(** C9: every recording operation, and so every sequence of them, leaves the
    recorder with the five instrument handles it had; the calls only append
    measurements to the sink, each on one of those five handles. *)
Theorem C9_recorder_read_only :
  forall (calls : list Call) (p : Process),
    recorder (run p calls) = recorder p
    /\ handles (recorder (run p calls)) = handles (recorder p)
    /\ exists evs,
         sdk (run p calls) = sdk p ++ evs
         /\ Forall (fun m => In (instrument_of m) (handles (recorder p))) evs.
Proof.
  induction calls as [|c calls IH]; intros p.
  - split; [reflexivity|]. split; [reflexivity|].
    exists []. split; [now rewrite app_nil_r|constructor].
  - unfold run. simpl. fold (run (invoke p c) calls).
    destruct (IH (invoke p c)) as (Hr & _ & evs2 & Hs2 & Hf2).
    destruct (invoke_frame p c) as (Hr1 & evs1 & Hs1 & Hf1).
    assert (Hrec : recorder (run (invoke p c) calls) = recorder p)
      by now rewrite Hr.
    split; [exact Hrec|]. split; [now rewrite Hrec|].
    exists (evs1 ++ evs2). split.
    + now rewrite Hs2, Hs1, app_assoc.
    + apply Forall_app. split; [exact Hf1|]. now rewrite <- Hr1.
Qed.

(** *** The views *)

(** The bucket helper returns ten times the previous boundary at each step. *)
Lemma fill_step (n : nat) (start factor : float64.t) :
  prometheus.fill (S n) start factor
  = start :: prometheus.fill n (float64.mul start factor) factor.
Proof. reflexivity. Qed.

(** The view that NewOTelRecorder registers with responseSizeName carries
    an explicit-bucket histogram whose boundaries are exactly the 8 floats
    100, 1000, 10000, 100000, 1000000, 10000000, 100000000, 1000000000: the
    result of prometheus.ExponentialBuckets(100, 10, 8), each boundary an
    exact integer and ten times the one before. *)
Lemma size_view_carries_exponential_buckets :
  forall (exporter : Reader) (resource : Resource) (serviceName : string),
  exists (r : MetricsRecorder) (vd : metric.View) (bs : list float64.t),
    NewOTelRecorder exporter resource serviceName = Some r
    /\ registered_views r
       = [vd; getDurationView responseSizeName serviceName bs]
    /\ boundaries (getDurationView responseSizeName serviceName bs) = Some bs
    /\ prometheus.ExponentialBuckets
         (float64.of_int 100) (float64.of_int 10) 8 = Some bs
    /\ bs = map float64.of_int
              [100; 1000; 10000; 100000; 1000000; 10000000; 100000000;
               1000000000]
    /\ List.length bs = 8%nat
    /\ forallb (fun p => float64.exactly (fst p) (snd p) 1)
         (combine bs [100; 1000; 10000; 100000; 1000000; 10000000; 100000000;
                      1000000000]) = true
    /\ map (fun b => float64.mul b (float64.of_int 10)) (removelast bs)
       = tl bs.
Proof.
  intros exporter resource serviceName.
  destruct (NewOTelRecorder_built exporter resource serviceName)
    as (r & Hr & Hv & _).
  exists r. eexists. eexists.
  split; [exact Hr|]. split; [exact Hv|]. split; [reflexivity|].
  split; [exact ExponentialBuckets_100_10_8|].
  split; [reflexivity|].
  split; [reflexivity|].
  split; vm_compute; reflexivity.
Qed.

(** C10: the view that NewOTelRecorder registers for the request-duration
    instrument installs an explicit-bucket histogram whose boundaries are
    prometheus.DefBuckets, exactly the 11 float64 constants 0.005, 0.01,
    0.025, 0.05, 0.1, 0.25, 0.5, 1, 2.5, 5, 10; each boundary lies within
    half a unit in the last place of its decimal value. *)
Theorem C10_duration_view_boundaries :
  forall (exporter : Reader) (resource : Resource) (serviceName : string),
  exists (r : MetricsRecorder) (vs : metric.View) (bs : list float64.t),
    NewOTelRecorder exporter resource serviceName = Some r
    /\ registered_views r
       = [getDurationView requestDurationName serviceName bs; vs]
    /\ boundaries (getDurationView requestDurationName serviceName bs)
       = Some bs
    /\ bs = [ float64.dec 5 3; float64.dec 1 2; float64.dec 25 3;
              float64.dec 5 2; float64.dec 1 1; float64.dec 25 2;
              float64.dec 5 1; float64.of_int 1; float64.dec 25 1;
              float64.of_int 5; float64.of_int 10 ]
    /\ List.length bs = 11%nat
    /\ forallb (fun p => float64.nearest (fst p) (fst (snd p)) (snd (snd p)))
         (combine bs
            [ (5, 1000); (1, 100); (25, 1000); (5, 100); (1, 10); (25, 100);
              (5, 10); (1, 1); (25, 10); (5, 1); (10, 1) ]) = true.
Proof.
  intros exporter resource serviceName.
  destruct (NewOTelRecorder_built exporter resource serviceName)
    as (r & Hr & Hv & _).
  exists r. eexists. eexists.
  split; [exact Hr|]. split; [exact Hv|]. split; [reflexivity|].
  split; [reflexivity|].
  split; [reflexivity|].
  vm_compute; reflexivity.
Qed.

(** What the two registered views select, for every service name: the
    instrument-name selector is the service name and the scope selector is
    the instrument's literal name. *)
Lemma NewOTelRecorder_selectors exporter resource serviceName :
  exists r,
    NewOTelRecorder exporter resource serviceName = Some r
    /\ map selector (registered_views r)
       = [ (serviceName, "http_request_duration_seconds");
           (serviceName, "http_response_size_bytes") ].
Proof.
  destruct (NewOTelRecorder_built exporter resource serviceName)
    as (r & Hr & Hv & _).
  exists r. split; [exact Hr|]. now rewrite Hv.
Qed.

(** *** A recorder's instruments are kept apart *)

Lemma same_instrument_sym (a b : instrumentImpl) :
  same_instrument a b = same_instrument b a.
Proof.
  unfold same_instrument.
  now rewrite (String.eqb_sym (inst_name a)),
    (String.eqb_sym (instrumentation.Name (scope (inst_meter a)))).
Qed.

Lemma same_instrument_name (a b : instrumentImpl) :
  String.eqb (inst_name a) (inst_name b) = false -> same_instrument a b = false.
Proof.
  intros H. unfold same_instrument. rewrite H. apply andb_false_r.
Qed.

Lemma same_instrument_scope (a b : instrumentImpl) :
  String.eqb (instrumentation.Name (scope (inst_meter a)))
             (instrumentation.Name (scope (inst_meter b))) = false ->
  same_instrument a b = false.
Proof.
  intros H. unfold same_instrument. now rewrite H.
Qed.

Lemma NewOTelRecorder_handles exporter resource serviceName r :
  NewOTelRecorder exporter resource serviceName = Some r ->
  map (fun h => (instrumentation.Name (scope (inst_meter h)), inst_name h))
      (handles r)
  = [ (serviceName, "http_request_duration_seconds");
      (serviceName, "http_response_size_bytes");
      (serviceName, "http_requests_inflight");
      (serviceName, "impressions");
      (serviceName, "reasons") ].
Proof.
  intros H.
  destruct (NewOTelRecorder_built exporter resource serviceName)
    as (r0 & H0 & _ & Hh).
  rewrite H0 in H. injection H as <-. exact Hh.
Qed.

Lemma NewOTelRecorder_distinct exporter resource serviceName r :
  NewOTelRecorder exporter resource serviceName = Some r ->
  distinct_handles r = true.
Proof.
  intros H. apply NewOTelRecorder_handles in H.
  unfold handles in H. simpl in H.
  injection H as _ Hd _ Hs _ Hf _ Hi _ Hr.
  unfold distinct_handles, handles, all_distinct, forallb.
  rewrite !(same_instrument_name (httpRequestDurHistogram r)),
    !(same_instrument_name (httpResponseSizeHistogram r)),
    !(same_instrument_name (httpRequestsInflight r)),
    !(same_instrument_name (impressions r));
    try reflexivity;
    rewrite ?Hd, ?Hs, ?Hf, ?Hi, ?Hr; reflexivity.
Qed.

(** The separations that the recording operations rely on. *)
Lemma distinct_handles_pairs (r : MetricsRecorder) :
  distinct_handles r = true ->
  same_instrument (httpRequestDurHistogram r) (httpResponseSizeHistogram r)
  = false
  /\ same_instrument (httpResponseSizeHistogram r) (httpRequestDurHistogram r)
     = false
  /\ same_instrument (httpRequestsInflight r) (impressions r) = false
  /\ same_instrument (impressions r) (httpRequestsInflight r) = false
  /\ same_instrument (httpRequestsInflight r) (reasons r) = false
  /\ same_instrument (reasons r) (httpRequestsInflight r) = false
  /\ same_instrument (impressions r) (reasons r) = false
  /\ same_instrument (reasons r) (impressions r) = false.
Proof.
  unfold distinct_handles, handles, all_distinct, forallb.
  rewrite !andb_true_iff, !negb_true_iff.
  intros H. decompose [and] H.
  repeat split; try assumption;
    rewrite same_instrument_sym; assumption.
Qed.

Lemma records_on_Add h s i ctx incr attrs :
  records_on h (s ++ [Int64Add i ctx incr attrs]) = records_on h s.
Proof. rewrite records_on_app. apply app_nil_r. Qed.

Lemma adds_on_Record c s i ctx v attrs :
  adds_on c (s ++ [Float64Record i ctx v attrs]) = adds_on c s.
Proof. rewrite adds_on_app. apply app_nil_r. Qed.

Lemma records_on_snoc h s i ctx v attrs :
  records_on h (s ++ [Float64Record i ctx v attrs])
  = records_on h s ++ (if same_instrument i h then [(v, attrs)] else []).
Proof.
  rewrite records_on_app. simpl. now destruct (same_instrument i h).
Qed.

Lemma exec_method c r s :
  exec (method c r) s = sdk (invoke {| recorder := r; sdk := s |} c).
Proof. reflexivity. Qed.

Lemma exec_RecordEvaluation r ctx err reason variant key s :
  exec (RecordEvaluation r ctx err reason variant key) s
  = exec (Reasons r ctx reason err)
      (match err with
       | None => exec (Impressions r ctx reason variant key) s
       | Some _ => s
       end).
Proof.
  unfold RecordEvaluation. rewrite exec_bind. now destruct err.
Qed.

Lemma run_cons r s c calls :
  run {| recorder := r; sdk := s |} (c :: calls)
  = run {| recorder := r; sdk := exec (method c r) s |} calls.
Proof. reflexivity. Qed.

(** The effect of one call, seen from each instrument of a recorder whose
    instruments are distinct. *)
Lemma method_observed (r : MetricsRecorder) (c : Call) (s : Sdk) :
  distinct_handles r = true ->
  records_on (httpRequestDurHistogram r) (exec (method c r) s)
  = records_on (httpRequestDurHistogram r) s ++ duration_points c
  /\ records_on (httpResponseSizeHistogram r) (exec (method c r) s)
     = records_on (httpResponseSizeHistogram r) s ++ size_points c
  /\ adds_on (httpRequestsInflight r) (exec (method c r) s)
     = adds_on (httpRequestsInflight r) s ++ inflight_adds c
  /\ adds_on (impressions r) (exec (method c r) s)
     = adds_on (impressions r) s ++ impressions_adds c
  /\ adds_on (reasons r) (exec (method c r) s)
     = adds_on (reasons r) s ++ reasons_adds c.
Proof.
  intros Hd. apply distinct_handles_pairs in Hd.
  destruct Hd as (Hds & Hsd & Hfi & Hif & Hfr & Hrf & Hir & Hri).
  destruct c as [ctx d attrs|ctx n attrs|ctx attrs|ctx attrs
                |ctx reason variant key|ctx reason err
                |ctx err reason variant key]; cbn [method];
    [unfold HTTPRequestDuration|unfold HTTPResponseSize
    |unfold InFlightRequestStart|unfold InFlightRequestEnd| | |
     rewrite exec_RecordEvaluation; destruct err];
    rewrite ?exec_Reasons, ?exec_Impressions, ?exec_Record, ?exec_Add,
      ?records_on_Add, ?adds_on_Record, ?records_on_snoc, ?adds_on_snoc,
      ?same_instrument_refl, ?Hds, ?Hsd, ?Hfi, ?Hif, ?Hfr, ?Hrf, ?Hir, ?Hri;
    cbn [duration_points size_points inflight_adds impressions_adds
         reasons_adds];
    rewrite ?app_nil_r, <- ?app_assoc; repeat split; reflexivity.
Qed.

Lemma run_observed (r : MetricsRecorder) (calls : list Call) :
  distinct_handles r = true ->
  forall s : Sdk,
    records_on (httpRequestDurHistogram r)
      (sdk (run {| recorder := r; sdk := s |} calls))
    = records_on (httpRequestDurHistogram r) s
      ++ flat_map duration_points calls
    /\ records_on (httpResponseSizeHistogram r)
         (sdk (run {| recorder := r; sdk := s |} calls))
       = records_on (httpResponseSizeHistogram r) s
         ++ flat_map size_points calls
    /\ adds_on (httpRequestsInflight r)
         (sdk (run {| recorder := r; sdk := s |} calls))
       = adds_on (httpRequestsInflight r) s ++ flat_map inflight_adds calls
    /\ adds_on (impressions r)
         (sdk (run {| recorder := r; sdk := s |} calls))
       = adds_on (impressions r) s ++ flat_map impressions_adds calls
    /\ adds_on (reasons r)
         (sdk (run {| recorder := r; sdk := s |} calls))
       = adds_on (reasons r) s ++ flat_map reasons_adds calls.
Proof.
  intros Hd. induction calls as [|c calls IH]; intros s.
  - cbn. now rewrite !app_nil_r.
  - rewrite run_cons.
    destruct (IH (exec (method c r) s)) as (I1 & I2 & I3 & I4 & I5).
    destruct (method_observed r c s Hd) as (M1 & M2 & M3 & M4 & M5).
    rewrite I1, I2, I3, I4, I5, M1, M2, M3, M4, M5.
    cbn [flat_map]. rewrite <- !app_assoc. repeat split; reflexivity.
Qed.

Lemma NewOTelRecorder_total exporter resource serviceName :
  exists r, NewOTelRecorder exporter resource serviceName = Some r.
Proof.
  destruct (NewOTelRecorder_built exporter resource serviceName) as (r & H & _).
  exists r. exact H.
Qed.


(** *** Sequences of calls, instrument by instrument *)

(** X1: on a recorder built by NewOTelRecorder, whatever calls are made, the
    duration histogram receives exactly the values of the
    HTTPRequestDuration calls, duration.Seconds() with the caller's
    attributes, in call order, and nothing from any other operation. *)
Theorem duration_histogram_sees_only_durations :
  forall (exporter : Reader) (resource : Resource) (serviceName : string),
  exists r : MetricsRecorder,
    NewOTelRecorder exporter resource serviceName = Some r
    /\ forall (calls : list Call) (s : Sdk),
         records_on (httpRequestDurHistogram r)
           (sdk (run {| recorder := r; sdk := s |} calls))
         = records_on (httpRequestDurHistogram r) s
           ++ flat_map duration_points calls.
Proof.
  intros exporter resource serviceName.
  destruct (NewOTelRecorder_total exporter resource serviceName) as (r & Hr).
  exists r. split; [exact Hr|]. intros calls s.
  apply (run_observed r calls (NewOTelRecorder_distinct _ _ _ _ Hr) s).
Qed.

(** X2: on a recorder built by NewOTelRecorder, the size histogram receives
    exactly the byte counts of the HTTPResponseSize calls, converted to
    float64 and with the caller's attributes, in call order, and nothing
    from any other operation. *)
Theorem size_histogram_sees_only_sizes :
  forall (exporter : Reader) (resource : Resource) (serviceName : string),
  exists r : MetricsRecorder,
    NewOTelRecorder exporter resource serviceName = Some r
    /\ forall (calls : list Call) (s : Sdk),
         records_on (httpResponseSizeHistogram r)
           (sdk (run {| recorder := r; sdk := s |} calls))
         = records_on (httpResponseSizeHistogram r) s
           ++ flat_map size_points calls.
Proof.
  intros exporter resource serviceName.
  destruct (NewOTelRecorder_total exporter resource serviceName) as (r & Hr).
  exists r. split; [exact Hr|]. intros calls s.
  apply (run_observed r calls (NewOTelRecorder_distinct _ _ _ _ Hr) s).
Qed.

Lemma fold_inflight_net (sel : list attribute.KeyValue -> bool)
  (calls : list Call) :
  forall a : Z,
    int64.min <= a <= int64.max ->
    fold_left (fun acc (p : Z * list attribute.KeyValue) =>
                 if sel (snd p) then int64.add acc (fst p) else acc)
              (flat_map inflight_adds calls) a
    = int64.wrap (a + inflight_net sel calls).
Proof.
  induction calls as [|c calls IH]; intros a Ha.
  - cbn. rewrite Z.add_0_r. symmetry. now apply wrap_small.
  - cbn [flat_map inflight_net fold_right]. fold (inflight_net sel calls).
    rewrite fold_left_app.
    destruct c as [| |ctx attrs|ctx attrs| | |];
      cbn [inflight_adds fold_left fst snd]; try (now apply IH);
      destruct (sel attrs); try (now apply IH);
      unfold int64.add; rewrite IH by apply wrap_range;
      rewrite wrap_add_l; f_equal; lia.
Qed.

(** X3: on a recorder built by NewOTelRecorder, after any sequence of calls
    the in-flight sum over any selection of attribute lists is the sum
    before, plus the number of InFlightRequestStart calls, minus the number
    of InFlightRequestEnd calls, counting the calls whose attributes are
    selected, in int64 arithmetic; no other operation moves it. *)
Theorem inflight_sum_is_starts_minus_ends :
  forall (exporter : Reader) (resource : Resource) (serviceName : string),
  exists r : MetricsRecorder,
    NewOTelRecorder exporter resource serviceName = Some r
    /\ forall (calls : list Call) (s : Sdk)
              (sel : list attribute.KeyValue -> bool),
         Int64Sum (httpRequestsInflight r) sel
           (sdk (run {| recorder := r; sdk := s |} calls))
         = int64.wrap
             (Int64Sum (httpRequestsInflight r) sel s
              + inflight_net sel calls).
Proof.
  intros exporter resource serviceName.
  destruct (NewOTelRecorder_total exporter resource serviceName) as (r & Hr).
  exists r. split; [exact Hr|]. intros calls s sel.
  destruct (run_observed r calls (NewOTelRecorder_distinct _ _ _ _ Hr) s)
    as (_ & _ & H & _).
  unfold Int64Sum at 1. rewrite H, fold_left_app.
  apply fold_inflight_net, Int64Sum_range.
Qed.

Lemma has_key_last k v (l : list attribute.KeyValue) :
  attribute.has_key k (l ++ [attribute.String k v]) = true.
Proof.
  unfold attribute.has_key. rewrite existsb_app. cbn.
  now rewrite String.eqb_refl, orb_true_r.
Qed.

(** X4: on a recorder built by NewOTelRecorder, every increment that any
    sequence of calls puts on the impressions counter or on the reasons
    counter is exactly 1, never zero or negative, and carries the
    "feature_flag.reason" attribute; those on the reasons counter also carry
    the provider-name attribute. *)
Theorem evaluation_counters_only_grow_by_one :
  forall (exporter : Reader) (resource : Resource) (serviceName : string),
  exists r : MetricsRecorder,
    NewOTelRecorder exporter resource serviceName = Some r
    /\ forall (calls : list Call) (s : Sdk),
       exists di dr : list (Z * list attribute.KeyValue),
         adds_on (impressions r)
           (sdk (run {| recorder := r; sdk := s |} calls))
         = adds_on (impressions r) s ++ di
         /\ adds_on (reasons r)
              (sdk (run {| recorder := r; sdk := s |} calls))
            = adds_on (reasons r) s ++ dr
         /\ Forall (fun p => fst p = 1
                     /\ attribute.has_key FeatureFlagReasonKey (snd p) = true)
              di
         /\ Forall (fun p => fst p = 1
                     /\ attribute.has_key FeatureFlagReasonKey (snd p) = true
                     /\ attribute.has_key semconv.FeatureFlagProviderNameKey
                          (snd p) = true)
              dr.
Proof.
  intros exporter resource serviceName.
  destruct (NewOTelRecorder_total exporter resource serviceName) as (r & Hr).
  exists r. split; [exact Hr|]. intros calls s.
  destruct (run_observed r calls (NewOTelRecorder_distinct _ _ _ _ Hr) s)
    as (_ & _ & _ & Hi & Hre).
  exists (flat_map impressions_adds calls), (flat_map reasons_adds calls).
  split; [exact Hi|]. split; [exact Hre|]. split.
  - apply Forall_flat_map, Forall_forall. intros c _.
    destruct c as [| | | |ctx reason variant key| |ctx [e|] reason variant key];
      cbn [impressions_adds]; repeat constructor; apply has_key_last.
  - apply Forall_flat_map, Forall_forall. intros c _.
    destruct c as [| | | | |ctx reason [e|]|ctx [e|] reason variant key];
      cbn [reasons_adds]; repeat constructor.
Qed.

Lemma length_reports (evals : list Evaluation) :
  List.length (flat_map reasons_adds (map report evals)) = List.length evals
  /\ List.length (flat_map impressions_adds (map report evals))
     = List.length (filter succeeded evals).
Proof.
  induction evals as [|ev evals [IHr IHi]]; [now split|].
  cbn [map flat_map filter]. rewrite !length_app, IHr, IHi.
  unfold succeeded, report. destruct (ev_err ev); now split.
Qed.

(** X5: on a recorder built by NewOTelRecorder, reporting a batch of flag
    evaluations through RecordEvaluation adds one increment to the reasons
    counter per evaluation and one to the impressions counter per
    evaluation whose error is nil; the failed evaluations are the
    difference. *)
Theorem evaluations_are_counted :
  forall (exporter : Reader) (resource : Resource) (serviceName : string),
  exists r : MetricsRecorder,
    NewOTelRecorder exporter resource serviceName = Some r
    /\ forall (evals : list Evaluation) (s : Sdk),
         List.length
           (adds_on (reasons r)
              (sdk (run {| recorder := r; sdk := s |} (map report evals))))
         = (List.length (adds_on (reasons r) s) + List.length evals)%nat
         /\ List.length
              (adds_on (impressions r)
                 (sdk (run {| recorder := r; sdk := s |} (map report evals))))
            = (List.length (adds_on (impressions r) s)
               + List.length (filter succeeded evals))%nat.
Proof.
  intros exporter resource serviceName.
  destruct (NewOTelRecorder_total exporter resource serviceName) as (r & Hr).
  exists r. split; [exact Hr|]. intros evals s.
  destruct (run_observed r (map report evals)
              (NewOTelRecorder_distinct _ _ _ _ Hr) s)
    as (_ & _ & _ & Hi & Hre).
  destruct (length_reports evals) as [Lr Li].
  rewrite Hi, Hre, !length_app, Lr, Li. split; reflexivity.
Qed.


(** *** Two recorders *)

Lemma run_frame (calls : list Call) :
  forall p : Process,
  exists evs,
    sdk (run p calls) = sdk p ++ evs
    /\ Forall (fun m => In (instrument_of m) (handles (recorder p))) evs.
Proof.
  induction calls as [|c calls IH]; intros p.
  - exists []. split; [now rewrite app_nil_r|constructor].
  - destruct (invoke_frame p c) as (Hr1 & evs1 & Hs1 & Hf1).
    destruct (IH (invoke p c)) as (evs2 & Hs2 & Hf2).
    exists (evs1 ++ evs2). split.
    + cbn [run fold_left]. fold (run (invoke p c) calls).
      now rewrite Hs2, Hs1, app_assoc.
    + apply Forall_app. split; [exact Hf1|]. now rewrite <- Hr1.
Qed.

Lemma foreign_measurements (h : instrumentImpl) (evs : Sdk) :
  Forall (fun m => same_instrument (instrument_of m) h = false) evs ->
  records_on h evs = [] /\ adds_on h evs = [].
Proof.
  induction 1 as [|m evs Hm _ [IHr IHa]]; [now split|].
  destruct m as [i ctx v attrs|i ctx incr attrs]; cbn in Hm |- *;
    rewrite ?Hm; now split.
Qed.

Lemma NewOTelRecorder_scope exporter resource serviceName r :
  NewOTelRecorder exporter resource serviceName = Some r ->
  forall h, In h (handles r) ->
    instrumentation.Name (scope (inst_meter h)) = serviceName.
Proof.
  intros H h Hin. apply NewOTelRecorder_handles in H.
  unfold handles in H, Hin. simpl in H.
  injection H as Hd _ Hs _ Hf _ Hi _ Hr _.
  simpl in Hin. intuition (subst h; assumption).
Qed.

(** X6: two recorders built for different service names do not touch each
    other's instruments: whatever calls are made on the first, every
    histogram and counter of the second holds what it held before. *)
Theorem recorders_of_different_services_are_independent :
  forall (exporter1 exporter2 : Reader) (resource1 resource2 : Resource)
         (serviceName1 serviceName2 : string),
    String.eqb serviceName1 serviceName2 = false ->
    exists r1 r2 : MetricsRecorder,
      NewOTelRecorder exporter1 resource1 serviceName1 = Some r1
      /\ NewOTelRecorder exporter2 resource2 serviceName2 = Some r2
      /\ forall (calls : list Call) (s : Sdk) (h : instrumentImpl),
           In h (handles r2) ->
           records_on h (sdk (run {| recorder := r1; sdk := s |} calls))
           = records_on h s
           /\ adds_on h (sdk (run {| recorder := r1; sdk := s |} calls))
              = adds_on h s.
Proof.
  intros exporter1 exporter2 resource1 resource2 serviceName1 serviceName2 Hne.
  destruct (NewOTelRecorder_total exporter1 resource1 serviceName1)
    as (r1 & Hr1).
  destruct (NewOTelRecorder_total exporter2 resource2 serviceName2)
    as (r2 & Hr2).
  exists r1, r2. split; [exact Hr1|]. split; [exact Hr2|].
  intros calls s h Hin.
  destruct (run_frame calls {| recorder := r1; sdk := s |})
    as (evs & Hs & Hf).
  cbn [sdk recorder] in Hs, Hf. rewrite Hs, records_on_app, adds_on_app.
  assert (Hforeign :
    Forall (fun m => same_instrument (instrument_of m) h = false) evs).
  { eapply Forall_impl; [|exact Hf]. cbn beta. intros m Hm.
    apply same_instrument_scope.
    rewrite (NewOTelRecorder_scope _ _ _ _ Hr1 _ Hm),
      (NewOTelRecorder_scope _ _ _ _ Hr2 _ Hin).
    exact Hne. }
  destruct (foreign_measurements h evs Hforeign) as [-> ->].
  rewrite !app_nil_r. split; reflexivity.
Qed.

(** *** Pairing by attributes *)


Lemma Value_eqb_refl (v : attribute.Value) : attribute.Value_eqb v v = true.
Proof.
  destruct v as [b|n|t]; cbn.
  - now destruct b.
  - apply Z.eqb_refl.
  - apply String.eqb_refl.
Qed.

Lemma Set_eqb_refl (l : list attribute.KeyValue) : attribute.Set_eqb l l = true.
Proof.
  induction l as [|kv l IH]; [reflexivity|].
  cbn. unfold attribute.KeyValue_eqb.
  now rewrite String.eqb_refl, Value_eqb_refl, IH.
Qed.

Lemma same_set_refl (attrs : list attribute.KeyValue) :
  attribute.same_set attrs attrs = true.
Proof. apply Set_eqb_refl. Qed.

(** X7: an InFlightRequestEnd cancels an InFlightRequestStart exactly when
    the two carry the same attribute set (the same keys and values whatever
    their order, the last value counting for a repeated key): then the
    in-flight sum at the Start's point is what it was; otherwise it is left
    one higher. *)
Theorem inflight_pairing_is_per_attribute_set :
  forall (r : MetricsRecorder) (ctx : Ctx)
         (started ended : list attribute.KeyValue) (s : Sdk),
    Int64Point (httpRequestsInflight r) started
      (exec (InFlightRequestStart r ctx started ;;
             InFlightRequestEnd r ctx ended) s)
    = if attribute.same_set started ended
      then Int64Point (httpRequestsInflight r) started s
      else int64.add (Int64Point (httpRequestsInflight r) started s) 1.
Proof.
  intros r ctx started ended s. unfold Int64Point.
  rewrite exec_bind. unfold InFlightRequestStart, InFlightRequestEnd.
  rewrite !exec_Add, !Int64Sum_snoc, same_instrument_refl, same_set_refl.
  cbn [andb]. destruct (attribute.same_set started ended); [|reflexivity].
  unfold int64.add. rewrite wrap_add_l.
  replace (Int64Sum (httpRequestsInflight r) (attribute.same_set started) s
           + 1 + -1)
    with (Int64Sum (httpRequestsInflight r) (attribute.same_set started) s)
    by lia.
  apply wrap_small, Int64Sum_range.
Qed.

(** *** Attributes and contexts *)

(** X8: HTTPAttributes loses nothing: two attribute lists it builds are
    equal only if the service name, URL, method and status code are equal,
    whatever the recorders. *)
Theorem HTTPAttributes_injective :
  forall (r1 r2 : MetricsRecorder)
         (svcName1 url1 method1 code1 svcName2 url2 method2 code2 : string),
    HTTPAttributes r1 svcName1 url1 method1 code1
    = HTTPAttributes r2 svcName2 url2 method2 code2 ->
    svcName1 = svcName2 /\ url1 = url2 /\ method1 = method2 /\ code1 = code2.
Proof.
  intros r1 r2 svcName1 url1 method1 code1 svcName2 url2 method2 code2 H.
  unfold HTTPAttributes, attribute.String in H.
  injection H as -> -> -> ->. now repeat split.
Qed.

(** X9: every recording operation hands its own context to the SDK
    unchanged, and makes exactly one SDK call, except RecordEvaluation with
    a nil error, which makes two. *)
Theorem calls_pass_their_context :
  forall (p : Process) (c : Call),
  exists evs : Sdk,
    sdk (invoke p c) = sdk p ++ evs
    /\ Forall (fun m => ctx_of m = ctx_of_call c) evs
    /\ List.length evs
       = match c with
         | CallRecordEvaluation _ None _ _ _ => 2%nat
         | _ => 1%nat
         end.
Proof.
  intros p c. unfold invoke. cbn [sdk].
  destruct c as [ctx d attrs|ctx n attrs|ctx attrs|ctx attrs
                |ctx reason variant key|ctx reason err
                |ctx err reason variant key]; cbn [method ctx_of_call].
  1-5: eexists; split; [reflexivity|]; split;
       [repeat constructor|reflexivity].
  - eexists. split; [apply exec_Reasons|].
    split; [repeat constructor|reflexivity].
  - rewrite exec_RecordEvaluation, exec_Reasons. destruct err as [e|].
    + eexists. split; [reflexivity|].
      split; [repeat constructor|reflexivity].
    + rewrite exec_Impressions, <- app_assoc.
      eexists. split; [reflexivity|].
      split; [repeat constructor|reflexivity].
Qed.

(** *** The instruments of a new recorder *)

(** X10: for every exporter, resource and service name NewOTelRecorder
    returns a recorder whose five instruments are, in order, two histograms,
    an up/down counter and two counters with the names, descriptions and
    units of the source (only the size histogram has a unit, "By"); all five
    come from one meter, scoped to the service name, of a provider holding
    the exporter as its only reader, the resource and the two views; and
    the five are pairwise distinct for the SDK. *)
Theorem NewOTelRecorder_instruments :
  forall (exporter : Reader) (resource : Resource) (serviceName : string),
  exists r : MetricsRecorder,
    NewOTelRecorder exporter resource serviceName = Some r
    /\ map (fun h => (inst_kind h, inst_name h, inst_description h,
                      inst_unit h))
           (handles r)
       = [ (metric.InstrumentKindHistogram, "http_request_duration_seconds",
            "The latency of the HTTP requests", "");
           (metric.InstrumentKindHistogram, "http_response_size_bytes",
            "The size of the HTTP responses", "By");
           (metric.InstrumentKindUpDownCounter, "http_requests_inflight",
            "The number of inflight requests being handled at the same time",
            "");
           (metric.InstrumentKindCounter, "impressions",
            "The number of evaluations for a given flag", "");
           (metric.InstrumentKindCounter, "reasons",
            "The number of evaluations for a given reason", "") ]
    /\ Forall (fun h =>
                 inst_meter h
                 = {| provider :=
                        {| readers := [exporter];
                           views := registered_views r;
                           res := Some resource |};
                      scope := {| instrumentation.Name := serviceName;
                                  instrumentation.Version := "";
                                  instrumentation.SchemaURL := "" |} |})
              (handles r)
    /\ List.length (registered_views r) = 2%nat
    /\ distinct_handles r = true.
Proof.
  intros exporter resource serviceName.
  destruct (NewOTelRecorder_total exporter resource serviceName) as (r & Hr).
  exists r. split; [exact Hr|].
  pose proof (NewOTelRecorder_distinct _ _ _ _ Hr) as Hd.
  unfold NewOTelRecorder in Hr. rewrite ExponentialBuckets_100_10_8 in Hr.
  injection Hr as <-.
  split; [reflexivity|]. split; [repeat constructor|].
  split; [reflexivity|exact Hd].
Qed.


(** X12: on a recorder built by NewOTelRecorder, whatever calls are made,
    each counter receives exactly the increments of its own operations, in
    call order: the in-flight counter +1 per InFlightRequestStart and -1 per
    InFlightRequestEnd with the caller's attributes; the impressions counter
    one increment per Impressions call and per RecordEvaluation call with a
    nil error; the reasons counter one per Reasons call and per
    RecordEvaluation call, with the exception type of the error if any. *)
Theorem counters_see_only_their_calls :
  forall (exporter : Reader) (resource : Resource) (serviceName : string),
  exists r : MetricsRecorder,
    NewOTelRecorder exporter resource serviceName = Some r
    /\ forall (calls : list Call) (s : Sdk),
         adds_on (httpRequestsInflight r)
           (sdk (run {| recorder := r; sdk := s |} calls))
         = adds_on (httpRequestsInflight r) s ++ flat_map inflight_adds calls
         /\ adds_on (impressions r)
              (sdk (run {| recorder := r; sdk := s |} calls))
            = adds_on (impressions r) s ++ flat_map impressions_adds calls
         /\ adds_on (reasons r)
              (sdk (run {| recorder := r; sdk := s |} calls))
            = adds_on (reasons r) s ++ flat_map reasons_adds calls.
Proof.
  intros exporter resource serviceName.
  destruct (NewOTelRecorder_total exporter resource serviceName) as (r & Hr).
  exists r. split; [exact Hr|]. intros calls s.
  apply (run_observed r calls (NewOTelRecorder_distinct _ _ _ _ Hr) s).
Qed.

(** X13: for every service name, the boundaries of both views registered by
    NewOTelRecorder are positive and strictly increasing, as an explicit
    bucket histogram needs them. *)
Theorem view_boundaries_are_increasing :
  forall (exporter : Reader) (resource : Resource) (serviceName : string),
  exists (r : MetricsRecorder) (vd vs : metric.View)
         (bd bs : list float64.t),
    NewOTelRecorder exporter resource serviceName = Some r
    /\ registered_views r = [vd; vs]
    /\ boundaries vd = Some bd
    /\ boundaries vs = Some bs
    /\ float64.increasing bd = true
    /\ float64.increasing bs = true
    /\ forallb (float64.ltb (float64.of_int 0)) (bd ++ bs) = true.
Proof.
  intros exporter resource serviceName.
  destruct (NewOTelRecorder_built exporter resource serviceName)
    as (r & Hr & Hv & _).
  exists r. do 4 eexists.
  split; [exact Hr|]. split; [exact Hv|].
  split; [reflexivity|]. split; [reflexivity|].
  repeat split; vm_compute; reflexivity.
Qed.

Lemma distinct_keys_NoDup (ks : list attribute.Key) :
  attribute.distinct_keys ks = true -> NoDup ks.
Proof.
  induction ks as [|k ks IH]; intros H; constructor.
  - apply andb_true_iff in H. destruct H as [H _].
    apply negb_true_iff in H. intros Hin.
    assert (He : existsb (String.eqb k) ks = true)
      by (apply existsb_exists; exists k; split;
          [exact Hin|apply String.eqb_refl]).
    congruence.
  - apply IH. apply andb_true_iff in H. apply H.
Qed.

(** X14: the attribute lists the recorder builds itself never repeat a key:
    the four keys of HTTPAttributes are distinct, and so are the two or
    three keys that Reasons passes to the reasons counter, with or without
    an error. *)
Theorem built_attributes_have_distinct_keys :
  forall (r : MetricsRecorder) (svcName url method code : string)
         (ctx : Ctx) (reason : string) (err : option E) (s : Sdk),
    NoDup (map attribute.key (HTTPAttributes r svcName url method code))
    /\ exists attrs : list attribute.KeyValue,
         exec (Reasons r ctx reason err) s
         = s ++ [Int64Add (reasons r) ctx 1 attrs]
         /\ NoDup (map attribute.key attrs).
Proof.
  intros r svcName url method code ctx reason err s.
  split; [apply distinct_keys_NoDup; reflexivity|].
  eexists. split; [apply exec_Reasons|].
  apply distinct_keys_NoDup. destruct err; reflexivity.
Qed.


(** *** Which buckets the size histogram gets *)

(** The views registered by NewOTelRecorder apply to the size histogram it
    creates only when the service name is the instrument's own name;
    otherwise the histogram is left with the default aggregation. *)
Lemma size_histogram_bucket_boundaries exporter resource serviceName :
  exists r,
    NewOTelRecorder exporter resource serviceName = Some r
    /\ bucket_boundaries (httpResponseSizeHistogram r)
       = if String.eqb serviceName "http_response_size_bytes"
         then Some (map float64.of_int
                      [100; 1000; 10000; 100000; 1000000; 10000000;
                       100000000; 1000000000])
         else None.
Proof.
  unfold NewOTelRecorder. rewrite ExponentialBuckets_100_10_8.
  eexists. split; [reflexivity|].
  unfold bucket_boundaries, applied_views, selects.
  cbn [httpResponseSizeHistogram NewFloat64Histogram newInstrument fst
       fold_left applyInstrumentOption inst_meter inst_name MeterOf provider
       scope NewMeterProvider applyOption views app getDurationView
       metric.criteria metric.Name metric.Scope instrumentation.Name
       instrumentation.named filter responseSizeName requestDurationName].
  change responseSizeName with "http_response_size_bytes".
  rewrite (String.eqb_sym "http_response_size_bytes" serviceName).
  destruct (String.eqb_spec serviceName "http_response_size_bytes")
    as [->|Hne]; reflexivity.
Qed.

End Telemetry.

(** ** Concrete runs *)

(** C1: the constructor is meant to register the duration view for the
    instrument named "http_request_duration_seconds" in the scope of the
    service name, and the size view for "http_response_size_bytes" in that
    scope.  Run with the service name "flagd", it registers views whose
    instrument-name selector is "flagd" and whose scope selector is the
    instrument's name: getDurationView takes (svcName, viewName, bucket) and
    is called with (instrument name, service name, bucket). *)
Theorem C1_selectors_swapped_at_flagd :
  option_map (fun r => map selector (registered_views unit unit r))
    (NewOTelRecorder unit unit string (fun _ _ => None) tt tt "flagd")
  = Some [ ("flagd", "http_request_duration_seconds");
           ("flagd", "http_response_size_bytes") ]
  /\ option_map (fun r => map selector (registered_views unit unit r))
       (NewOTelRecorder unit unit string (fun _ _ => None) tt tt "flagd")
     <> Some [ ("http_request_duration_seconds", "flagd");
               ("http_response_size_bytes", "flagd") ].
Proof.
  split; [vm_compute; reflexivity|vm_compute; discriminate].
Qed.

(** C4: the response-size histogram is meant to have the 8 bucket
    boundaries 100, 1000, ..., 1000000000.  Run with the service name
    "flagd", the constructor puts these boundaries on a view that selects
    the instrument named "flagd" in the scope "http_response_size_bytes";
    no view of its provider applies to the size histogram, named
    "http_response_size_bytes" in the scope "flagd", which is left with the
    default aggregation.  The swapped arguments of getDurationView are the
    cause, as for C1. *)
Theorem C4_size_histogram_misses_its_buckets_at_flagd :
  option_map
    (fun r => bucket_boundaries unit unit
                (httpResponseSizeHistogram unit unit r))
    (NewOTelRecorder unit unit string (fun _ _ => None) tt tt "flagd")
  = Some None
  /\ option_map
       (fun r => applied_views unit unit
                   (httpResponseSizeHistogram unit unit r))
       (NewOTelRecorder unit unit string (fun _ _ => None) tt tt "flagd")
     = Some []
  /\ option_map
       (fun r =>
          map (fun v => (selector v, boundaries v))
              (views unit unit
                 (provider unit unit
                    (inst_meter unit unit
                       (httpResponseSizeHistogram unit unit r)))))
       (NewOTelRecorder unit unit string (fun _ _ => None) tt tt "flagd")
     = Some [ (("flagd", "http_request_duration_seconds"),
               Some prometheus.DefBuckets);
              (("flagd", "http_response_size_bytes"),
               Some (map float64.of_int
                       [100; 1000; 10000; 100000; 1000000; 10000000;
                        100000000; 1000000000])) ]
  /\ option_map
       (fun r => bucket_boundaries unit unit
                   (httpResponseSizeHistogram unit unit r))
       (NewOTelRecorder unit unit string (fun _ _ => None) tt tt "flagd")
     <> Some (Some (map float64.of_int
                      [100; 1000; 10000; 100000; 1000000; 10000000;
                       100000000; 1000000000])).
Proof.
  repeat split; try (vm_compute; reflexivity).
  vm_compute. discriminate.
Qed.

(** The instruments themselves carry the literal names and the service
    name as scope: the identity the views were meant to select. *)
Example instruments_at_flagd :
  option_map
    (fun r => map (fun h => (inst_name unit unit h,
                             instrumentation.Name
                               (scope unit unit (inst_meter unit unit h))))
                  (handles unit unit r))
    (NewOTelRecorder unit unit string (fun _ _ => None) tt tt "flagd")
  = Some [ ("http_request_duration_seconds", "flagd");
           ("http_response_size_bytes", "flagd");
           ("http_requests_inflight", "flagd");
           ("impressions", "flagd");
           ("reasons", "flagd") ].
Proof. vm_compute. reflexivity. Qed.

Example HTTPAttributes_svc_x_GET_200 :
  forall r : MetricsRecorder unit unit,
    HTTPAttributes unit unit r "svc" "/x" "GET" "200"
    = [ attribute.String "service.name" "svc";
        attribute.String "http.url" "/x";
        attribute.String "http.method" "GET";
        attribute.String "http.status_code" "200" ].
Proof. reflexivity. Qed.

Example Seconds_negative_1500ms :
  float64.exactly (time.Seconds (- 1500 * time.Millisecond)) (-3) 2 = true.
Proof. vm_compute. reflexivity. Qed.

Example Seconds_one_nanosecond :
  float64.nearest (time.Seconds time.Nanosecond) 1 (10 ^ 9) = true.
Proof. vm_compute. reflexivity. Qed.

Example ExponentialBuckets_bad_count :
  prometheus.ExponentialBuckets (float64.of_int 100) (float64.of_int 10) 0
  = None.
Proof. reflexivity. Qed.

Example RecordEvaluation_with_error :
  forall r : MetricsRecorder unit unit,
    exec unit unit unit
      (RecordEvaluation unit unit unit string (fun _ _ => [])
         r tt (Some "boom") "ERROR" "on" "my-flag") []
    = [ Int64Add unit unit unit (reasons unit unit r) tt 1
          [ attribute.String "feature_flag.provider_name" "flagd";
            attribute.String "feature_flag.reason" "ERROR";
            attribute.String "exception.type" "boom" ] ].
Proof. reflexivity. Qed.

(** ** Creation errors *)



(** ** Instances of the conditional properties *)

Lemma recorders_of_different_services_are_independent_witness :
  String.eqb "checkout" "billing" = false
  /\ exists r1 r2 : MetricsRecorder unit unit,
       NewOTelRecorder unit unit string (fun _ _ => None) tt tt "checkout"
       = Some r1
       /\ NewOTelRecorder unit unit string (fun _ _ => None) tt tt "billing"
          = Some r2
       /\ forall (calls : list (Call unit string)) (s : Sdk unit unit unit)
                 (h : instrumentImpl unit unit),
            In h (handles unit unit r2) ->
            records_on unit unit unit h
              (sdk unit unit unit
                 (run unit unit unit string (fun _ _ => [])
                    (Build_Process unit unit unit r1 s) calls))
            = records_on unit unit unit h s
            /\ adds_on unit unit unit h
                 (sdk unit unit unit
                    (run unit unit unit string (fun _ _ => [])
                       (Build_Process unit unit unit r1 s) calls))
               = adds_on unit unit unit h s.
Proof.
  split; [reflexivity|].
  apply (recorders_of_different_services_are_independent
           unit unit unit string (fun _ _ => []) (fun _ _ => None)
           tt tt tt tt "checkout" "billing").
  reflexivity.
Defined.


Lemma HTTPAttributes_injective_witness :
  exists r : MetricsRecorder unit unit,
    NewOTelRecorder unit unit string (fun _ _ => None) tt tt "flagd" = Some r
    /\ HTTPAttributes unit unit r "svc" "/x" "GET" "200"
       = HTTPAttributes unit unit r "svc" "/x" "GET" "200"
    /\ "svc" = "svc" /\ "/x" = "/x" /\ "GET" = "GET" /\ "200" = "200".
Proof.
  destruct (NewOTelRecorder_total unit unit string (fun _ _ => None)
              tt tt "flagd") as (r & Hr).
  exists r. split; [exact Hr|]. split; [reflexivity|].
  apply (HTTPAttributes_injective unit unit r r
           "svc" "/x" "GET" "200" "svc" "/x" "GET" "200").
  reflexivity.
Defined.

(** ** Attribute sets and failed creations on concrete inputs *)

Example same_set_ignores_order :
  attribute.same_set
    [attribute.String "http.method" "GET"; attribute.String "http.url" "/x"]
    [attribute.String "http.url" "/x"; attribute.String "http.method" "GET"]
  = true.
Proof. reflexivity. Qed.

Example same_set_keeps_last_value :
  attribute.NewSet
    [attribute.String "http.url" "/x"; attribute.String "http.method" "GET";
     attribute.String "http.url" "/y"]
  = [attribute.String "http.method" "GET"; attribute.String "http.url" "/y"].
Proof. reflexivity. Qed.

Example same_set_tells_values_apart :
  attribute.same_set
    [attribute.String "http.status_code" "200"]
    [attribute.String "http.status_code" "500"]
  = false.
Proof. reflexivity. Qed.

Example failed_size_histogram_is_unusable :
  option_map
    (fun r => map (inst_usable unit unit) (handles unit unit r))
    (NewOTelRecorder unit unit string
       (fun _ name =>
          if String.eqb name "http_response_size_bytes"
          then Some "conflicting aggregation" else None)
       tt tt "flagd")
  = Some [true; false; true; true; true].
Proof. vm_compute. reflexivity. Qed.
